(** * itorepo/libs, time/timer.ts: the validation chain and the TimeEntry timer

  A shallow embedding of [BaseParameterValidator] and [TimeEntry], with the
  fragment of the JavaScript semantics the two classes rely on: dynamically
  typed values, strict equality, truthiness, accessor properties that may
  lack a getter or a setter, and abrupt completion by [throw]. *)

From Stdlib Require Import ZArith List String Bool Lia.
Import ListNotations.
Local Open Scope Z_scope.

(** ** The JavaScript fragment *)

Module Js.

(** Runtime values.  Numbers that occur in the file are integral epoch
    milliseconds, so the numeric payload is [Z]; [VNaN] is kept apart since
    it is the one number that is not strictly equal to itself.  An object
    is known by its reference only. *)
Inductive value : Type :=
| VUndefined
| VNull
| VBool (b : bool)
| VNumber (n : Z)
| VNaN
| VString (s : string)
| VObject (ref : nat).

(** [a === b] *)
Definition strict_eq (a b : value) : bool :=
  match a, b with
  | VUndefined, VUndefined => true
  | VNull, VNull => true
  | VBool x, VBool y => Bool.eqb x y
  | VNumber x, VNumber y => Z.eqb x y
  | VString x, VString y => String.eqb x y
  | VObject x, VObject y => Nat.eqb x y
  | _, _ => false
  end.

(** [a !== b] *)
Definition strict_neq (a b : value) : bool := negb (strict_eq a b).

(** ToBoolean, the test applied by [if], [?:], [!] and [||]. *)
Definition to_boolean (v : value) : bool :=
  match v with
  | VUndefined | VNull | VNaN => false
  | VBool b => b
  | VNumber n => negb (Z.eqb n 0)
  | VString s => negb (String.eqb s EmptyString)
  | VObject _ => true
  end.

Inductive error : Type :=
| Error (message : string)
| TypeError (message : string).

(** The outcome of evaluating a method body. *)
Inductive completion (A : Type) : Type :=
| Normal (a : A)
| Throw (e : error).
Arguments Normal {A} a.
Arguments Throw {A} e.

Definition bind {A B : Type} (c : completion A) (k : A -> completion B)
  : completion B :=
  match c with
  | Normal a => k a
  | Throw e => Throw e
  end.

Definition throws {A : Type} (c : completion A) : bool :=
  match c with
  | Normal _ => false
  | Throw _ => true
  end.

(** An accessor property of a class whose instances have type [O].  Either
    half may be missing from the class body. *)
Record accessor (O T : Type) : Type := mkAccessor {
  getter : option (O -> completion T);
  setter : option (T -> O -> completion O)
}.
Arguments mkAccessor {O T} getter setter.
Arguments getter {O T} a.
Arguments setter {O T} a.

(** [this.p]: runs the getter; an accessor without one reads as
    [undefined].  [inj] embeds the getter's static type into the values. *)
Definition prop_get {O T : Type} (inj : T -> value) (p : accessor O T)
    (this : O) : completion value :=
  match getter p with
  | Some g => bind (g this) (fun x => Normal (inj x))
  | None => Normal VUndefined
  end.

(** [this.p = x] in strict code (class bodies are strict): runs the setter;
    an accessor without one rejects the assignment. *)
Definition prop_set {O T : Type} (p : accessor O T) (x : T) (this : O)
  : completion O :=
  match setter p with
  | Some s => s x this
  | None => Throw (TypeError "Cannot set property which has only a getter")
  end.

End Js.

Import Js.

Notation "x <- c ;; k" := (Js.bind c (fun x => k))
(at level 61, c at next level, right associativity).

(** ** class BaseParameterValidator *)

Module Validator.

Record BaseParameterValidator : Type := mkValidator {
  _currentParam : value;
  _currentAnswer : bool
}.

(** [private get current(): any] *)
Definition current : accessor BaseParameterValidator value :=
  mkAccessor (Some (fun this => Normal (_currentParam this))) None.

(** [private set answer(result: boolean)]; the class declares no
    [get answer]. *)
Definition answer : accessor BaseParameterValidator bool :=
  mkAccessor None
    (Some (fun result this =>
             Normal (mkValidator (_currentParam this) result))).

(** [private get break(): boolean { return this.answer === false; }] *)
Definition break : accessor BaseParameterValidator bool :=
  mkAccessor
    (Some (fun this =>
             a <- prop_get VBool answer this ;;
             Normal (strict_eq a (VBool false))))
    None.

(** [constructor(param: any)] *)
Definition new (param : value) : BaseParameterValidator :=
  mkValidator param true.

(** The shape shared by the five predicate methods:
    [if (!this.break) { this.answer = test(this.current); } return this;] *)
Definition guarded (test : value -> bool) (this : BaseParameterValidator)
  : completion BaseParameterValidator :=
  b <- prop_get VBool break this ;;
  if negb (to_boolean b)
  then c <- prop_get (fun v => v) current this ;;
       prop_set answer (test c) this
  else Normal this.

Definition isSet : BaseParameterValidator -> completion BaseParameterValidator :=
  guarded (fun c => strict_neq c VUndefined).

Definition isNotNull : BaseParameterValidator -> completion BaseParameterValidator :=
  guarded (fun c => strict_neq c VNull).

Definition isBoolean : BaseParameterValidator -> completion BaseParameterValidator :=
  guarded (fun c => strict_eq c (VBool true) || strict_eq c (VBool false)).

Definition isTrue : BaseParameterValidator -> completion BaseParameterValidator :=
  guarded (fun c => strict_eq c (VBool true)).

Definition isFalse : BaseParameterValidator -> completion BaseParameterValidator :=
  guarded (fun c => strict_eq c (VBool false)).

(** [public valueOf(): boolean { return this.answer; }] *)
Definition valueOf (this : BaseParameterValidator) : completion value :=
  prop_get VBool answer this.

(** The names of the predicate methods, to speak of call sequences. *)
Inductive predicate : Type := IsSet | IsNotNull | IsBoolean | IsTrue | IsFalse.

Definition call (p : predicate)
  : BaseParameterValidator -> completion BaseParameterValidator :=
  match p with
  | IsSet => isSet
  | IsNotNull => isNotNull
  | IsBoolean => isBoolean
  | IsTrue => isTrue
  | IsFalse => isFalse
  end.

(** [this.p1().p2()...pn()] *)
Fixpoint chain (ps : list predicate) (this : BaseParameterValidator)
  : completion BaseParameterValidator :=
  match ps with
  | [] => Normal this
  | p :: ps' => this' <- call p this ;; chain ps' this'
  end.

(** What one predicate alone answers about [v]: the verdict stored by
    [new BaseParameterValidator(v).p()]. *)
Definition alone (p : predicate) (v : value) : option bool :=
  match call p (new v) with
  | Normal this => Some (_currentAnswer this)
  | Throw _ => None
  end.

(** The conjunction of the predicates' separate answers. *)
Fixpoint conj_alone (ps : list predicate) (v : value) : option bool :=
  match ps with
  | [] => Some true
  | p :: ps' =>
      match alone p v, conj_alone ps' v with
      | Some b, Some r => Some (b && r)
      | _, _ => None
      end
  end.

(** A class instance used as a value is an object.  Only its truthiness is
  ever asked for below, so one reference stands for all instances. *)
Definition as_value (this : BaseParameterValidator) : value := VObject 0.

End Validator.

(** ** class TimeEntry *)

Module Timer.

Import Validator.

Record TimeEntry : Type := mkEntry {
  _started : Z;
  _stopped : Z;
  _marker : option string
}.

(** [get ready()] *)
Definition ready (this : TimeEntry) : bool :=
  (_started this =? 0) && (_stopped this =? _started this).

(** [get running()] *)
Definition running (this : TimeEntry) : bool :=
  (_started this >? 0) && (_stopped this =? 0).

(** [get stopped()] *)
Definition stopped (this : TimeEntry) : bool :=
  (_started this >? 0) && (_stopped this >=? _started this).

(** [marker || other], for a string on the left and a [string | null] on
  the right. *)
Definition marker_or (marker : string) (other : option string) : option string :=
  if to_boolean (VString marker) then Some marker else other.

(** The instance as the field initialisers leave it. *)
Definition fresh : TimeEntry := mkEntry 0 0 None.

(** [constructor(marker: string, start: boolean)].  The flag is whatever the
  caller passes at run time; [now] is what [Date.now()] answers if asked. *)
Definition new (marker : string) (start : value) (now : Z)
  : completion TimeEntry :=
  let strt := Validator.new start in
  let this := mkEntry (_started fresh) (_stopped fresh) (marker_or marker None) in
  b <- isBoolean strt ;;
  t <- isTrue b ;;
  Normal (mkEntry (if to_boolean (as_value t) then now else _started this)
                  (_stopped this) (_marker this)).

(** [start(marker: string): number] *)
Definition start (marker : string) (now : Z) (this : TimeEntry)
  : Z * TimeEntry :=
  let this1 := mkEntry (_started this) (_stopped this)
                       (marker_or marker (_marker this)) in
  let this2 := mkEntry now (_stopped this1) (_marker this1) in
  (_started this2, this2).

(** [stop(): number] *)
Definition stop (now : Z) (this : TimeEntry) : Z * TimeEntry :=
  let this1 := mkEntry (_started this)
                       (if running this then now else _stopped this)
                       (_marker this) in
  (_stopped this1, this1).

(** [reset(): void] *)
Definition reset (this : TimeEntry) : TimeEntry := mkEntry 0 0 None.

(** [elapsed(): number] *)
Definition elapsed (this : TimeEntry) : completion Z :=
  Throw (Error "Method not implemented.").

(** Calls made on an entry after its construction, each paired with the
  clock reading at the call. *)
Inductive op : Type :=
| Start (marker : string)
| Stop
| Reset.

Definition exec (o : op) (now : Z) (this : TimeEntry) : TimeEntry :=
  match o with
  | Start marker => snd (start marker now this)
  | Stop => snd (stop now this)
  | Reset => reset this
  end.

Fixpoint run (calls : list (op * Z)) (this : TimeEntry) : TimeEntry :=
  match calls with
  | [] => this
  | (o, now) :: calls' => run calls' (exec o now this)
  end.

(** [stoppedAt], when nonzero, is not before [startedAt]. *)
Definition stop_after_start (this : TimeEntry) : Prop :=
  _stopped this <> 0 -> _stopped this >= _started this.

(** The clock readings of [calls] never go back from [t]. *)
Fixpoint clock_ok (t : Z) (calls : list (op * Z)) : bool :=
  match calls with
  | [] => true
  | (_, now) :: calls' => (t <=? now) && clock_ok now calls'
  end.

(** Every [start] among [calls] finds [stoppedAt] at 0. *)
Fixpoint starts_unstopped (calls : list (op * Z)) (this : TimeEntry) : bool :=
  match calls with
  | [] => true
  | (o, now) :: calls' =>
      match o with
      | Start _ => _stopped this =? 0
      | _ => true
      end && starts_unstopped calls' (exec o now this)
  end.

(** An entry none of the three getters describes: stopped before it was
  (re)started. *)
Definition stale (this : TimeEntry) : bool :=
  (0 <? _stopped this) && (_stopped this <? _started this).

(** No [reset] among [calls]. *)
Fixpoint no_reset (calls : list (op * Z)) : bool :=
  match calls with
  | [] => true
  | (Reset, _) :: _ => false
  | _ :: calls' => no_reset calls'
  end.

(** Whether an entry that was Ready or not ([r]) is Ready after [calls],
  told from the calls alone: [reset] makes it so, [start] ends it, [stop]
  leaves it as it is. *)
Fixpoint ready_after (r : bool) (calls : list (op * Z)) : bool :=
  match calls with
  | [] => r
  | (Start _, _) :: calls' => ready_after false calls'
  | (Stop, _) :: calls' => ready_after r calls'
  | (Reset, _) :: calls' => ready_after true calls'
  end.

End Timer.

(** ** Properties of the validation chain *)

Section ChainProperties.

Import Validator.

(** [answer] has no getter, so [this.answer] is [undefined] and the
  comparison in [break] is [undefined === false]. *)
Lemma break_reads_false (this : BaseParameterValidator) :
  prop_get VBool break this = Normal (VBool false).
Proof. reflexivity. Qed.

(** Hence the guard of a predicate method always lets the test run. *)
Lemma guarded_runs (test : value -> bool) (this : BaseParameterValidator) :
  guarded test this
  = Normal (mkValidator (_currentParam this) (test (_currentParam this))).
Proof.
  unfold guarded. rewrite break_reads_false. reflexivity.
Qed.

Lemma call_runs (p : predicate) (this : BaseParameterValidator) :
  exists b, call p this = Normal (mkValidator (_currentParam this) b).
Proof.
  destruct p; cbn [call];
    unfold isSet, isNotNull, isBoolean, isTrue, isFalse;
    rewrite guarded_runs; eexists; reflexivity.
Qed.

(** A predicate's outcome does not depend on the verdict it finds. *)
Lemma call_forgets_verdict (p : predicate) (v : value) (a : bool) :
  call p (mkValidator v a) = call p (new v).
Proof.
  destruct p; cbn [call];
    unfold isSet, isNotNull, isBoolean, isTrue, isFalse;
    rewrite !guarded_runs; reflexivity.
Qed.

Lemma chain_runs (ps : list predicate) (this : BaseParameterValidator) :
  exists b, chain ps this = Normal (mkValidator (_currentParam this) b).
Proof.
  revert this. induction ps as [|p ps IH]; intros this.
  - exists (_currentAnswer this). destruct this; reflexivity.
  - destruct (call_runs p this) as [b Hb].
    destruct (IH (mkValidator (_currentParam this) b)) as [b' Hb'].
    exists b'. cbn [chain]. rewrite Hb. exact Hb'.
Qed.

Lemma chain_app (ps qs : list predicate) (this : BaseParameterValidator) :
  chain (ps ++ qs) this = (this' <- chain ps this ;; chain qs this').
Proof.
  revert this. induction ps as [|p ps IH]; intros this; cbn [chain app bind].
  - reflexivity.
  - destruct (call p this) as [this'|e]; cbn [bind]; [apply IH | reflexivity].
Qed.

(** What the chain does store: the answer of the predicate called last,
  whatever the earlier ones found. *)
Lemma chain_last_wins (ps : list predicate) (p : predicate) (v : value) :
  exists this, chain (ps ++ [p]) (new v) = Normal this
               /\ alone p v = Some (_currentAnswer this).
Proof.
  rewrite chain_app. destruct (chain_runs ps (new v)) as [b Hb].
  rewrite Hb. cbn [bind chain new _currentParam].
  unfold alone. rewrite call_forgets_verdict.
  destruct (call_runs p (new v)) as [b' Hb']. rewrite Hb'. cbn [bind].
  eexists; split; reflexivity.
Qed.

(** C2, evaluated on the code: on [undefined], the calls [isSet()] then
  [isNotNull()] leave the stored verdict at [true] and [valueOf()] yields
  [undefined], while the conjunction of the two predicates' separate answers
  is [false]. *)
Theorem chain_is_not_conjunction :
  chain [IsSet; IsNotNull] (new VUndefined)
    = Normal (mkValidator VUndefined true)
  /\ valueOf (mkValidator VUndefined true) = Normal VUndefined
  /\ conj_alone [IsSet; IsNotNull] VUndefined = Some false.
Proof. repeat split. Qed.

(** C4, evaluated on the code: on [undefined], [isSet()] brings the verdict
  from [true] to [false], and the next call, [isNotNull()], brings it back to
  [true]. *)
Theorem verdict_rises_again :
  _currentAnswer (new VUndefined) = true
  /\ isSet (new VUndefined) = Normal (mkValidator VUndefined false)
  /\ isNotNull (mkValidator VUndefined false)
     = Normal (mkValidator VUndefined true).
Proof. repeat split. Qed.

(** Strict equality with a boolean, [undefined] or [null] is equality. *)
Lemma strict_eq_bool (v : value) (b : bool) :
  strict_eq v (VBool b) = true <-> v = VBool b.
Proof.
  destruct v as [| |x| | | |]; cbn [strict_eq];
    try (split; [discriminate | discriminate]).
  rewrite Bool.eqb_true_iff. split; [intros ->; reflexivity | congruence].
Qed.

Lemma strict_eq_undefined (v : value) :
  strict_eq v VUndefined = true <-> v = VUndefined.
Proof.
  destruct v; cbn [strict_eq]; split; (reflexivity || discriminate).
Qed.

Lemma strict_eq_null (v : value) :
  strict_eq v VNull = true <-> v = VNull.
Proof.
  destruct v; cbn [strict_eq]; split; (reflexivity || discriminate).
Qed.

(** C8: no predicate method throws, on any validator state (any stored value
  of any type, any verdict), alone or in any sequence of calls; a call
  completes normally, keeps the stored value and only rewrites the verdict.
  Input that does not fit only brings the verdict to [false]: [isSet] stores
  [false] exactly on [undefined], [isNotNull] exactly on [null], [isBoolean]
  exactly on a value that is no boolean, [isTrue] exactly on a value other
  than [true] and [isFalse] exactly on a value other than [false]; in
  particular a value that is no boolean is answered [false] by [isBoolean],
  [isTrue] and [isFalse]. *)
Theorem predicates_never_throw :
  forall (ps : list predicate) (this : BaseParameterValidator),
    throws (chain ps this) = false
    /\ (exists b, chain ps this = Normal (mkValidator (_currentParam this) b))
    /\ (forall p, throws (call p this) = false)
    /\ (strict_eq (_currentParam this) (VBool true)
        || strict_eq (_currentParam this) (VBool false) = false ->
        forall p, In p [IsBoolean; IsTrue; IsFalse] ->
                  call p this
                  = Normal (mkValidator (_currentParam this) false))
    /\ (call IsSet this = Normal (mkValidator (_currentParam this) false)
        <-> _currentParam this = VUndefined)
    /\ (call IsNotNull this = Normal (mkValidator (_currentParam this) false)
        <-> _currentParam this = VNull)
    /\ (call IsBoolean this = Normal (mkValidator (_currentParam this) false)
        <-> forall b, _currentParam this <> VBool b)
    /\ (call IsTrue this = Normal (mkValidator (_currentParam this) false)
        <-> _currentParam this <> VBool true)
    /\ (call IsFalse this = Normal (mkValidator (_currentParam this) false)
        <-> _currentParam this <> VBool false).
Proof.
  intros ps this.
  assert (Hverdict : forall (x y : bool) (v : value),
             Normal (mkValidator v x) = Normal (mkValidator v y) <-> x = y).
  { intros x y v. split; [intros H; injection H as H; exact H | intros ->; reflexivity]. }
  split; [|split; [|split; [|split; [|split; [|split; [|split; [|split]]]]]]].
  - destruct (chain_runs ps this) as [b Hb]. rewrite Hb. reflexivity.
  - apply chain_runs.
  - intros p. destruct (call_runs p this) as [b Hb]. rewrite Hb. reflexivity.
  - intros Hnb p Hp. apply orb_false_iff in Hnb. destruct Hnb as [Ht Hf].
    cbn [In] in Hp.
    destruct Hp as [<-|[<-|[<-|[]]]]; cbn [call];
      unfold isBoolean, isTrue, isFalse; rewrite guarded_runs;
      rewrite ?Ht, ?Hf; reflexivity.
  - cbn [call]. unfold isSet. rewrite guarded_runs, Hverdict.
    unfold strict_neq. rewrite negb_false_iff. apply strict_eq_undefined.
  - cbn [call]. unfold isNotNull. rewrite guarded_runs, Hverdict.
    unfold strict_neq. rewrite negb_false_iff. apply strict_eq_null.
  - cbn [call]. unfold isBoolean. rewrite guarded_runs, Hverdict.
    rewrite orb_false_iff, <- !not_true_iff_false, !strict_eq_bool.
    split.
    + intros [Ht Hf] [|]; assumption.
    + intros H. split; apply H.
  - cbn [call]. unfold isTrue. rewrite guarded_runs, Hverdict.
    rewrite <- not_true_iff_false, strict_eq_bool. reflexivity.
  - cbn [call]. unfold isFalse. rewrite guarded_runs, Hverdict.
    rewrite <- not_true_iff_false, strict_eq_bool. reflexivity.
Qed.

Lemma predicates_never_throw_witness :
  throws (chain [IsBoolean; IsTrue] (new (VString "true"))) = false
  /\ call IsBoolean (new (VString "true"))
     = Normal (mkValidator (VString "true") false)
  /\ call IsSet (mkValidator VUndefined true)
     = Normal (mkValidator VUndefined false)
  /\ call IsNotNull (mkValidator VNull true)
     = Normal (mkValidator VNull false)
  /\ call IsTrue (mkValidator (VNumber 1) true)
     = Normal (mkValidator (VNumber 1) false).
Proof.
  destruct (predicates_never_throw [IsBoolean; IsTrue] (new (VString "true")))
    as [H1 [_ [_ [H4 _]]]].
  destruct (predicates_never_throw [] (mkValidator VUndefined true))
    as [_ [_ [_ [_ [Hset _]]]]].
  destruct (predicates_never_throw [] (mkValidator VNull true))
    as [_ [_ [_ [_ [_ [Hnull _]]]]]].
  destruct (predicates_never_throw [] (mkValidator (VNumber 1) true))
    as [_ [_ [_ [_ [_ [_ [_ [Htrue _]]]]]]]].
  split; [exact H1|].
  split; [apply H4; [reflexivity | left; reflexivity]|].
  split; [apply Hset; reflexivity|].
  split; [apply Hnull; reflexivity | apply Htrue; discriminate].
Defined.

(** C10: after any sequence of predicate calls on any freshly constructed
  chain, [valueOf()] completes with [undefined], which is not the stored
  verdict [_currentAnswer] (nor any boolean). *)
Theorem valueOf_reads_undefined :
  forall (v : value) (ps : list predicate),
    exists this,
      chain ps (new v) = Normal this
      /\ valueOf this = Normal VUndefined
      /\ valueOf this <> Normal (VBool (_currentAnswer this))
      /\ getter answer = None.
Proof.
  intros v ps. destruct (chain_runs ps (new v)) as [b Hb].
  eexists; split; [exact Hb|]. repeat split. discriminate.
Qed.

End ChainProperties.

(** ** Properties of the timer *)

Section TimerProperties.

Import Validator Timer.

(** The constructor's test is the chain object, not its verdict: the entry
  is started at the clock reading whatever flag was passed. *)
Lemma new_runs (marker : string) (flag : value) (now : Z) :
  new marker flag now = Normal (mkEntry now 0 (marker_or marker None)).
Proof.
  unfold new, isBoolean, isTrue. rewrite guarded_runs. cbn [bind].
  rewrite guarded_runs. reflexivity.
Qed.

Lemma running_iff (this : TimeEntry) :
  running this = true <-> 0 < _started this /\ _stopped this = 0.
Proof.
  unfold running. rewrite andb_true_iff, Z.gtb_ltb, Z.ltb_lt, Z.eqb_eq.
  reflexivity.
Qed.

Lemma ready_iff (this : TimeEntry) :
  ready this = true <-> _started this = 0 /\ _stopped this = 0.
Proof.
  unfold ready. rewrite andb_true_iff, !Z.eqb_eq. lia.
Qed.

Lemma stopped_iff (this : TimeEntry) :
  stopped this = true <-> 0 < _started this /\ _started this <= _stopped this.
Proof.
  unfold stopped. rewrite andb_true_iff, Z.gtb_ltb, Z.ltb_lt, Z.geb_leb, Z.leb_le.
  reflexivity.
Qed.

(** C1, evaluated on the code: [new TimeEntry("x", false)] with the clock at
  1000 has [startedAt = 1000]; it is Running and not Ready. *)
Theorem constructor_starts_on_false_flag :
  new "x" (VBool false) 1000 = Normal (mkEntry 1000 0 (Some "x"%string))
  /\ ready (mkEntry 1000 0 (Some "x"%string)) = false
  /\ running (mkEntry 1000 0 (Some "x"%string)) = true.
Proof. repeat split. Qed.

(** C9: for every marker and every start argument, with a clock reading
  [now > 0], the constructor completes with [startedAt = now > 0], the test
  it makes being on an object, which is truthy; the new entry is Running,
  never Ready. *)
Theorem constructor_always_starts :
  forall (marker : string) (flag : value) (now : Z),
    0 < now ->
    exists this,
      new marker flag now = Normal this
      /\ _started this = now
      /\ 0 < _started this
      /\ ready this = false
      /\ running this = true
      /\ (forall t, to_boolean (as_value t) = true).
Proof.
  intros marker flag now Hnow. eexists. split; [apply new_runs|].
  cbn [_started]. repeat split; try assumption.
  - apply not_true_is_false. rewrite ready_iff. cbn. lia.
  - apply running_iff. cbn. lia.
Qed.

Lemma constructor_always_starts_witness :
  exists this,
    new "" VNull 1 = Normal this /\ _started this = 1 /\ ready this = false.
Proof.
  destruct (constructor_always_starts "" VNull 1 ltac:(reflexivity))
    as [this [H1 [H2 [_ [H4 _]]]]].
  exists this. repeat split; assumption.
Defined.

(** C7: for every pair of integer timestamps, no two of [ready], [running]
  and [stopped] hold together. *)
Theorem states_mutually_exclusive :
  forall (started' stopped' : Z) (marker : option string),
    let this := mkEntry started' stopped' marker in
    ready this && running this = false
    /\ ready this && stopped this = false
    /\ running this && stopped this = false.
Proof.
  intros s p m this.
  repeat split; apply not_true_is_false; rewrite andb_true_iff;
    rewrite ?ready_iff, ?running_iff, ?stopped_iff; subst this; cbn; lia.
Qed.

(** C6: on a Running entry [stop()] sets [stoppedAt] to the clock reading and
  returns it; on an entry that is not Running it changes nothing and returns
  the [stoppedAt] it found.  So on a Ready entry [stoppedAt] stays 0 and the
  entry stays Ready, and on a Stopped entry a first and a second [stop()]
  both leave the entry as it was. *)
Theorem stop_spec :
  forall (this : TimeEntry) (now : Z),
    (running this = true ->
     stop now this = (now, mkEntry (_started this) now (_marker this)))
    /\ (running this = false -> stop now this = (_stopped this, this))
    /\ (ready this = true ->
        _stopped (snd (stop now this)) = 0 /\ ready (snd (stop now this)) = true)
    /\ (stopped this = true ->
        forall now', stop now' (snd (stop now this)) = (_stopped this, this)).
Proof.
  intros this now.
  assert (Hno : running this = false -> stop now this = (_stopped this, this)).
  { intros H. unfold stop. rewrite H. destruct this; reflexivity. }
  split; [|split; [exact Hno|split]].
  - intros H. unfold stop. rewrite H. reflexivity.
  - intros H. rewrite Hno.
    + cbn [snd]. split; [apply ready_iff in H; apply H | exact H].
    + apply not_true_is_false. rewrite running_iff.
      apply ready_iff in H. lia.
  - intros H now'.
    assert (Hnr : running this = false).
    { apply not_true_is_false. rewrite running_iff.
      apply stopped_iff in H. lia. }
    rewrite Hno by exact Hnr. cbn [snd].
    unfold stop. rewrite Hnr. destruct this; reflexivity.
Qed.

Lemma stop_spec_witness :
  stop 1500 (mkEntry 1000 0 None) = (1500, mkEntry 1000 1500 None)
  /\ stop 1500 fresh = (0, fresh)
  /\ stop 1800 (snd (stop 1700 (mkEntry 1000 1500 None)))
     = (1500, mkEntry 1000 1500 None).
Proof.
  split; [|split].
  - apply (proj1 (stop_spec (mkEntry 1000 0 None) 1500)). reflexivity.
  - apply (proj1 (proj2 (stop_spec fresh 1500))). reflexivity.
  - apply (proj2 (proj2 (proj2 (stop_spec (mkEntry 1000 1500 None) 1700)))).
    reflexivity.
Defined.

(** C5, evaluated on the code: on the Stopped entry started at 1000 and
  stopped at 1500, [elapsed()] throws [Error("Method not implemented.")] and
  returns no duration; it does so on every entry. *)
Theorem elapsed_not_implemented :
  elapsed (mkEntry 1000 1500 None) = Throw (Error "Method not implemented.")
  /\ stopped (mkEntry 1000 1500 None) = true
  /\ forall this, throws (elapsed this) = true.
Proof. repeat split. Qed.

(** The invariant together with what makes [stop] keep it: a started entry
  was started no later than the last clock reading [t]. *)
Lemma exec_keeps_invariant (o : op) (t now : Z) (this : TimeEntry) :
  t <= now ->
  match o with Start _ => _stopped this = 0 | _ => True end ->
  (0 < _started this -> _started this <= t) /\ stop_after_start this ->
  (0 < _started (exec o now this) -> _started (exec o now this) <= now)
  /\ stop_after_start (exec o now this).
Proof.
  intros Hclock Hstart [Hlast Hinv]. unfold stop_after_start in *.
  destruct o as [marker| |]; cbn [exec start stop reset snd _started _stopped].
  - split; lia.
  - destruct (running this) eqn:Hrun.
    + apply running_iff in Hrun. split; lia.
    + split; lia.
  - split; lia.
Qed.

Lemma run_keeps_invariant (calls : list (op * Z)) :
  forall (t : Z) (this : TimeEntry),
    clock_ok t calls = true ->
    starts_unstopped calls this = true ->
    (0 < _started this -> _started this <= t) /\ stop_after_start this ->
    stop_after_start (run calls this).
Proof.
  induction calls as [|[o now] calls IH]; intros t this Hclock Hstarts Hinv.
  - apply Hinv.
  - cbn [clock_ok starts_unstopped run] in *.
    apply andb_true_iff in Hclock. destruct Hclock as [Hle Hclock].
    apply andb_true_iff in Hstarts. destruct Hstarts as [Hhere Hstarts].
    apply (IH now); [exact Hclock | exact Hstarts |].
    apply (exec_keeps_invariant o t); [apply Z.leb_le, Hle | | exact Hinv].
    destruct o; [apply Z.eqb_eq, Hhere | exact I | exact I].
Qed.

(** C3 as stated fails: construct at 1000 with the flag [true], [stop()] at
  1500, [start("x")] at 2000, the clock only moving forward; the entry then
  has [stoppedAt = 1500], nonzero and before [startedAt = 2000].  It fails
  too, without any [start], when the clock is set back between the
  construction at 1000 and a [stop()] at 500. *)
Lemma restart_leaves_stale_stop :
  new "x" (VBool true) 1000 = Normal (mkEntry 1000 0 (Some "x"%string))
  /\ clock_ok 1000 [(Stop, 1500); (Start "x", 2000)] = true
  /\ run [(Stop, 1500); (Start "x", 2000)] (mkEntry 1000 0 (Some "x"%string))
     = mkEntry 2000 1500 (Some "x"%string)
  /\ ~ stop_after_start
        (run [(Stop, 1500); (Start "x", 2000)]
             (mkEntry 1000 0 (Some "x"%string)))
  /\ ~ stop_after_start (run [(Stop, 500)] (mkEntry 1000 0 (Some "x"%string))).
Proof.
  repeat split; unfold stop_after_start; cbn; lia.
Qed.

(** C3, amended: for every entry built by the constructor and every sequence
  of [start], [stop] and [reset] calls on it whose clock readings never go
  back and in which each [start] finds [stoppedAt] at 0, the entry reached
  has [stoppedAt >= startedAt] whenever [stoppedAt] is nonzero. *)
Theorem stop_after_start_without_restart :
  forall (marker : string) (flag : value) (t0 : Z) (this : TimeEntry)
         (calls : list (op * Z)),
    new marker flag t0 = Normal this ->
    clock_ok t0 calls = true ->
    starts_unstopped calls this = true ->
    stop_after_start (run calls this).
Proof.
  intros marker flag t0 this calls Hnew Hclock Hstarts.
  rewrite new_runs in Hnew. injection Hnew as <-.
  apply (run_keeps_invariant calls t0); [exact Hclock | exact Hstarts |].
  unfold stop_after_start. cbn. lia.
Qed.

Lemma stop_after_start_without_restart_witness :
  stop_after_start
    (run [(Start "y", 1200); (Stop, 1500); (Stop, 1600); (Reset, 1700);
          (Start "", 1800); (Stop, 1800)]
         (mkEntry 1000 0 (Some "x"%string))).
Proof.
  apply (stop_after_start_without_restart "x" (VBool true) 1000);
    reflexivity.
Defined.

End TimerProperties.

(** ** Further properties: what the predicates answer *)

Section PredicateAnswers.

Import Validator.

Lemma alone_eq (p : predicate) (v : value) :
  alone p v
  = Some (match p with
          | IsSet => strict_neq v VUndefined
          | IsNotNull => strict_neq v VNull
          | IsBoolean => strict_eq v (VBool true) || strict_eq v (VBool false)
          | IsTrue => strict_eq v (VBool true)
          | IsFalse => strict_eq v (VBool false)
          end).
Proof.
  unfold alone. destruct p; cbn [call];
    unfold isSet, isNotNull, isBoolean, isTrue, isFalse;
    rewrite guarded_runs; reflexivity.
Qed.

(** X2: the predicates are strict.  Called first on a chain, [isSet] answers
  [true] for every value but [undefined] (for [null] too), [isNotNull] for
  every value but [null] (for [undefined] too), [isBoolean] for the two
  booleans only, [isTrue] for [true] only and [isFalse] for [false] only:
  truthy or falsy values of other types do not pass. *)
Theorem predicates_are_strict :
  forall v : value,
    (alone IsSet v = Some true <-> v <> VUndefined)
    /\ (alone IsNotNull v = Some true <-> v <> VNull)
    /\ (alone IsBoolean v = Some true <-> exists b, v = VBool b)
    /\ (alone IsTrue v = Some true <-> v = VBool true)
    /\ (alone IsFalse v = Some true <-> v = VBool false).
Proof.
  intros v. rewrite !alone_eq. unfold strict_neq.
  split; [|split; [|split; [|split]]].
  - rewrite <- strict_eq_undefined.
    destruct (strict_eq v VUndefined); cbn; split; congruence.
  - rewrite <- strict_eq_null.
    destruct (strict_eq v VNull); cbn; split; congruence.
  - split.
    + intros H. injection H as H. apply orb_true_iff in H.
      destruct H as [H|H]; apply strict_eq_bool in H; eauto.
    + intros [b ->]. destruct b; reflexivity.
  - rewrite <- strict_eq_bool. split; congruence.
  - rewrite <- strict_eq_bool. split; congruence.
Qed.

End PredicateAnswers.

(** ** Further properties: the life of an entry *)

Section Lifecycle.

Import Validator Timer.

Lemma stale_iff (this : TimeEntry) :
  stale this = true <-> 0 < _stopped this /\ _stopped this < _started this.
Proof.
  unfold stale. rewrite andb_true_iff, !Z.ltb_lt. reflexivity.
Qed.

Lemma stale_in_no_state (this : TimeEntry) :
  stale this = true ->
  ready this = false /\ running this = false /\ stopped this = false.
Proof.
  rewrite stale_iff. intros H.
  repeat split; apply not_true_is_false;
    rewrite ?ready_iff, ?running_iff, ?stopped_iff; lia.
Qed.

(** X3: [start] on a Stopped entry, at a clock reading after its
  [stoppedAt], leaves an entry that is neither Ready nor Running nor Stopped;
  as long as the clock does not go back, no later [start] or [stop] changes
  that, and [stoppedAt] keeps the value of the earlier run: only [reset]
  leads out. *)
Theorem restart_of_stopped_stays_stale :
  forall (this : TimeEntry) (marker : string) (now : Z)
         (calls : list (op * Z)),
    stopped this = true ->
    _stopped this < now ->
    clock_ok now calls = true ->
    no_reset calls = true ->
    let this' := run ((Start marker, now) :: calls) this in
    ready this' = false /\ running this' = false /\ stopped this' = false
    /\ _stopped this' = _stopped this.
Proof.
  intros this marker now calls Hst Hlt Hclock Hnr. cbn [run exec start snd].
  apply stopped_iff in Hst.
  set (p := _stopped this) in *.
  assert (Hinv : forall cs t e,
             clock_ok t cs = true -> no_reset cs = true ->
             _stopped e = p -> p < _started e -> _started e <= t ->
             stale (run cs e) = true /\ _stopped (run cs e) = p).
  { induction cs as [|[o n] cs IH]; intros t e Hc Hn Hp Hs Ht.
    - cbn [run]. split; [apply stale_iff; lia | exact Hp].
    - cbn [clock_ok] in Hc. apply andb_true_iff in Hc.
      destruct Hc as [Hle Hc]. apply Z.leb_le in Hle.
      destruct o as [m| |]; cbn [no_reset] in Hn; [| |discriminate];
        cbn [run exec start stop snd].
      + apply (IH n); cbn; try assumption; lia.
      + assert (Hrun : running e = false).
        { apply not_true_is_false. rewrite running_iff. lia. }
        rewrite Hrun. apply (IH n); cbn; try assumption; lia. }
  destruct (Hinv calls now
              (mkEntry now (_stopped this) (marker_or marker (_marker this))))
    as [Hstale Hp]; cbn; try assumption; try reflexivity; try lia.
  destruct (stale_in_no_state _ Hstale) as [H1 [H2 H3]].
  repeat split; assumption.
Qed.

Lemma restart_of_stopped_stays_stale_witness :
  running (run [(Start "", 2000); (Stop, 2500); (Start "y", 3000); (Stop, 3000)]
               (mkEntry 1000 1500 (Some "x"%string))) = false
  /\ _stopped (run [(Start "", 2000); (Stop, 2500); (Start "y", 3000);
                    (Stop, 3000)]
                   (mkEntry 1000 1500 (Some "x"%string))) = 1500.
Proof.
  destruct (restart_of_stopped_stays_stale
              (mkEntry 1000 1500 (Some "x"%string)) "" 2000
              [(Stop, 2500); (Start "y", 3000); (Stop, 3000)])
    as [_ [H2 [_ H4]]]; try reflexivity.
  split; [exact H2 | exact H4].
Defined.

(** X4: [start] on an entry whose [stoppedAt] is 0 (Ready or Running), at a
  positive clock reading, gives a Running entry and returns the reading; a
  [stop] that follows, the clock not having gone back, returns its own
  reading and gives a Stopped entry holding both readings. *)
Theorem start_then_stop :
  forall (this : TimeEntry) (marker : string) (now now' : Z),
    _stopped this = 0 ->
    0 < now ->
    now <= now' ->
    let started' := snd (start marker now this) in
    fst (start marker now this) = now
    /\ running started' = true
    /\ stop now' started'
       = (now', mkEntry now now' (marker_or marker (_marker this)))
    /\ stopped (snd (stop now' started')) = true.
Proof.
  intros this marker now now' H0 Hpos Hle started'.
  assert (Hrun : running started' = true).
  { apply running_iff. subst started'. cbn. lia. }
  split; [reflexivity | split; [exact Hrun | split]].
  - unfold stop. rewrite Hrun. subst started'. reflexivity.
  - unfold stop. rewrite Hrun. apply stopped_iff. subst started'. cbn. lia.
Qed.

Lemma start_then_stop_witness :
  stop 1500 (snd (start "job" 1000 fresh))
  = (1500, mkEntry 1000 1500 (Some "job"%string)).
Proof.
  apply (start_then_stop fresh "job" 1000 1500); reflexivity || discriminate.
Defined.

(** X6: a [stop] at a nonzero clock reading settles the matter: whatever the
  entry was, a second [stop] changes nothing and returns the [stoppedAt] the
  first one left. *)
Theorem stop_twice :
  forall (this : TimeEntry) (now now' : Z),
    now <> 0 ->
    stop now' (snd (stop now this))
    = (_stopped (snd (stop now this)), snd (stop now this)).
Proof.
  intros this now now' Hnow.
  assert (Hnr : running (snd (stop now this)) = false).
  { apply not_true_is_false. rewrite running_iff.
    unfold stop. cbn [snd _started _stopped].
    destruct (running this) eqn:Hrun; [lia|].
    intros [Hs Hp]. apply not_true_iff_false in Hrun. apply Hrun.
    apply running_iff. split; assumption. }
  unfold stop at 1. rewrite Hnr. destruct (snd (stop now this)); reflexivity.
Qed.

Lemma stop_twice_witness :
  stop 1800 (snd (stop 1500 (mkEntry 1000 0 None)))
  = (1500, mkEntry 1000 1500 None).
Proof.
  apply (stop_twice (mkEntry 1000 0 None) 1500 1800). discriminate.
Defined.

(** What every call keeps, the clock being positive and not going back:
  timestamps are never negative, and an entry without a start has no stop. *)
Lemma exec_keeps_shape (o : op) (t now : Z) (this : TimeEntry) :
  0 < t -> t <= now ->
  0 <= _stopped this
  /\ (_started this = 0 /\ _stopped this = 0 \/ 0 < _started this) ->
  0 <= _stopped (exec o now this)
  /\ (_started (exec o now this) = 0 /\ _stopped (exec o now this) = 0
      \/ 0 < _started (exec o now this)).
Proof.
  intros Ht Hle [Hp Hs].
  destruct o as [m| |]; cbn [exec start stop reset snd _started _stopped].
  - split; [exact Hp | right; lia].
  - destruct (running this) eqn:Hrun; [|split; assumption].
    apply running_iff in Hrun. split; [lia | right; apply Hrun].
  - split; [lia | left; split; reflexivity].
Qed.

(** X5: an entry built by the constructor at a positive clock reading and
  then driven by any calls whose clock readings do not go back is always in
  exactly one of four conditions: Ready, Running, Stopped, or stale (stopped
  before its last start).  None of the getters holds exactly when it is
  stale, and its timestamps are never negative. *)
Theorem reachable_entry_condition :
  forall (marker : string) (flag : value) (t0 : Z) (this : TimeEntry)
         (calls : list (op * Z)),
    0 < t0 ->
    new marker flag t0 = Normal this ->
    clock_ok t0 calls = true ->
    let this' := run calls this in
    ready this' || running this' || stopped this' = negb (stale this')
    /\ 0 <= _started this' /\ 0 <= _stopped this'.
Proof.
  intros marker flag t0 this calls Ht0 Hnew Hclock this'.
  rewrite new_runs in Hnew. injection Hnew as <-.
  assert (Hshape : 0 <= _stopped this'
                   /\ (_started this' = 0 /\ _stopped this' = 0
                       \/ 0 < _started this')).
  { subst this'.
    assert (Hgen : forall cs t e,
               0 < t -> clock_ok t cs = true ->
               0 <= _stopped e
               /\ (_started e = 0 /\ _stopped e = 0 \/ 0 < _started e) ->
               0 <= _stopped (run cs e)
               /\ (_started (run cs e) = 0 /\ _stopped (run cs e) = 0
                   \/ 0 < _started (run cs e))).
    { induction cs as [|[o n] cs IH]; intros t e Ht Hc He.
      - exact He.
      - cbn [clock_ok] in Hc. apply andb_true_iff in Hc.
        destruct Hc as [Hle Hc]. apply Z.leb_le in Hle.
        cbn [run]. apply (IH n); [lia | exact Hc |].
        apply (exec_keeps_shape o t); assumption. }
    apply (Hgen calls t0); [exact Ht0 | exact Hclock |]. cbn. lia. }
  destruct Hshape as [Hp Hs].
  split; [|lia].
  destruct (stale this') eqn:Hstale; cbn [negb].
  - destruct (stale_in_no_state _ Hstale) as [-> [-> ->]]. reflexivity.
  - apply not_true_iff_false in Hstale. rewrite stale_iff in Hstale.
    rewrite !orb_true_iff, ready_iff, running_iff, stopped_iff. lia.
Qed.

Lemma reachable_entry_condition_witness :
  stale (run [(Stop, 1500); (Start "", 2000)]
             (mkEntry 1000 0 (Some "x"%string))) = true
  /\ ready (run [(Stop, 1500); (Start "", 2000)]
                (mkEntry 1000 0 (Some "x"%string)))
     || running (run [(Stop, 1500); (Start "", 2000)]
                     (mkEntry 1000 0 (Some "x"%string)))
     || stopped (run [(Stop, 1500); (Start "", 2000)]
                     (mkEntry 1000 0 (Some "x"%string))) = false.
Proof.
  split; [reflexivity|].
  apply (proj1 (reachable_entry_condition "x" (VBool false) 1000
                  (mkEntry 1000 0 (Some "x"%string))
                  [(Stop, 1500); (Start "", 2000)]
                  ltac:(reflexivity) ltac:(reflexivity) ltac:(reflexivity))).
Defined.

(** X7: for an entry built by the constructor at a positive clock reading
  and driven by calls whose clock readings do not go back, [reset] is the
  only way back to Ready and [start] the only way out of it: the entry is
  Ready exactly when some [reset] was called with no [start] after it;
  [stop] never makes an entry Ready nor ends its being Ready. *)
Theorem ready_only_by_reset :
  forall (marker : string) (flag : value) (t0 : Z) (this : TimeEntry)
         (calls : list (op * Z)),
    0 < t0 ->
    new marker flag t0 = Normal this ->
    clock_ok t0 calls = true ->
    ready (run calls this) = ready_after false calls
    /\ (no_reset calls = true -> ready (run calls this) = false).
Proof.
  intros marker flag t0 this calls Ht0 Hnew Hclock.
  rewrite new_runs in Hnew. injection Hnew as <-.
  assert (Hgen : forall cs t e,
             0 < t -> clock_ok t cs = true ->
             0 <= _stopped e
             /\ (_started e = 0 /\ _stopped e = 0 \/ 0 < _started e) ->
             ready (run cs e) = ready_after (ready e) cs).
  { induction cs as [|[o n] cs IH]; intros t e Ht Hc He.
    - reflexivity.
    - cbn [clock_ok] in Hc. apply andb_true_iff in Hc.
      destruct Hc as [Hle Hc]. apply Z.leb_le in Hle.
      assert (Hstep : ready (exec o n e)
                      = match o with
                        | Start _ => false
                        | Stop => ready e
                        | Reset => true
                        end).
      { destruct o as [m| |]; cbn [exec start stop reset snd].
        - apply not_true_is_false. rewrite ready_iff. cbn. lia.
        - destruct (running e) eqn:Hrun; [|destruct e; reflexivity].
          apply running_iff in Hrun.
          transitivity false; [|symmetry]; apply not_true_is_false;
            rewrite ready_iff; cbn; lia.
        - reflexivity. }
      cbn [run].
      rewrite (IH n);
        [| lia | exact Hc | apply (exec_keeps_shape o t); assumption].
      rewrite Hstep. destruct o; reflexivity. }
  assert (Hready : ready (run calls (mkEntry t0 0 (marker_or marker None)))
                   = ready_after false calls).
  { rewrite (Hgen calls t0); [| exact Ht0 | exact Hclock | cbn; lia].
    f_equal. apply not_true_is_false. rewrite ready_iff. cbn. lia. }
  split; [exact Hready|].
  intros Hnr. rewrite Hready. clear - Hnr.
  induction calls as [|[[m| |] n] calls IH]; cbn [ready_after no_reset] in *;
    [reflexivity | apply IH, Hnr | apply IH, Hnr | discriminate].
Qed.

Lemma ready_only_by_reset_witness :
  ready (run [(Stop, 1500); (Reset, 1600); (Stop, 1700)]
             (mkEntry 1000 0 (Some "x"%string))) = true
  /\ ready (run [(Stop, 1500); (Start "", 1600); (Stop, 1700)]
                (mkEntry 1000 0 (Some "x"%string))) = false.
Proof.
  split.
  - apply (proj1 (ready_only_by_reset "x" (VBool true) 1000
                   (mkEntry 1000 0 (Some "x"%string))
                   [(Stop, 1500); (Reset, 1600); (Stop, 1700)]
                   ltac:(reflexivity) ltac:(reflexivity) ltac:(reflexivity))).
  - apply (proj2 (ready_only_by_reset "x" (VBool true) 1000
                   (mkEntry 1000 0 (Some "x"%string))
                   [(Stop, 1500); (Start "", 1600); (Stop, 1700)]
                   ltac:(reflexivity) ltac:(reflexivity) ltac:(reflexivity))).
    reflexivity.
Defined.

(** X8: the verdict the constructor's chain stores is the right one, [true]
  exactly when the flag is the boolean [true]; what the constructor tests is
  the chain object, truthy for every flag. *)
Theorem constructor_chain_verdict :
  forall flag : value,
    exists strt,
      (b <- isBoolean (Validator.new flag) ;; isTrue b) = Normal strt
      /\ (_currentAnswer strt = true <-> flag = VBool true)
      /\ to_boolean (as_value strt) = true.
Proof.
  intros flag. unfold isBoolean, isTrue.
  rewrite guarded_runs. cbn [bind]. rewrite guarded_runs.
  eexists. split; [reflexivity|].
  cbn [_currentAnswer _currentParam Validator.new].
  split; [apply strict_eq_bool | reflexivity].
Qed.

End Lifecycle.

(** ** Further properties: what a chain ends with *)

Section ChainOutcome.

Import Validator.

(** X1: the verdict a chain of calls ends with is the answer of the
  predicate called last, on the stored value: the calls before it, and the
  verdict the chain started from, have no part in it, so the whole chain
  ends as the last call alone would. *)
Theorem last_predicate_decides :
  forall (ps : list predicate) (p : predicate) (this : BaseParameterValidator),
    exists b,
      chain (ps ++ [p]) this = Normal (mkValidator (_currentParam this) b)
      /\ alone p (_currentParam this) = Some b
      /\ chain (ps ++ [p]) this = chain [p] (new (_currentParam this)).
Proof.
  intros ps p this. rewrite chain_app.
  destruct (chain_runs ps this) as [a Ha]. rewrite Ha. cbn [bind chain].
  rewrite call_forgets_verdict. unfold alone.
  destruct (call_runs p (new (_currentParam this))) as [b Hb].
  rewrite Hb. cbn [bind]. exists b. repeat split.
Qed.

End ChainOutcome.
